(** * StatisticsGen: the component definition of tfx/components/statistics_gen

    A shallow embedding of [StatisticsGen.__init__]
    (tfx/components/statistics_gen/component.py) together with the
    collaborators it calls: the absl logger, the channel allocator of
    [tfx.types], the JSON utility [tfx.utils.json_utils], the constructor of
    the component spec and the base component initializer. *)

From Stdlib Require Import NArith ZArith Ascii Lia.
From stdpp Require Import base option list strings gmap.

(** ** Python strings

    A [str] that comes from the caller (a split name, the text [to_json]
    returns) or that is handed on (the JSON text of the split names) is the
    sequence of its code points, each below 1114112; surrogate code points
    may stand alone in it, as in Python.  The texts the program itself
    writes down (its log message, the key of its output, class names of
    exceptions) are ASCII and kept as Rocq strings. *)

Definition str : Type := list N.

Definition ord (c : ascii) : N := N_of_ascii c.

(** The [str] of an ASCII literal. *)
Fixpoint py (s : string) : str :=
  match s with
  | EmptyString => []
  | String c r => ord c :: py r
  end.

(** Every code point of the string is one Python can hold. *)
Definition valid_str (s : str) : bool := forallb (fun c => c <? 1114112)%N s.

(** ** tfx.utils.json_utils *)

Module json_utils.
Local Open Scope N_scope.

(** The entries of [ESCAPE_DCT] that have a two-character escape:
    backslash, double quote, and the controls b, f, n, r, t. *)
Definition short_escape (n : N) : option N :=
  if n =? 92 then Some 92
  else if n =? 34 then Some 34
  else if n =? 8 then Some 98
  else if n =? 12 then Some 102
  else if n =? 10 then Some 110
  else if n =? 13 then Some 114
  else if n =? 9 then Some 116
  else None.

(** A lower-case hexadecimal digit. *)
Definition hexdigit (d : N) : N :=
  if d <? 10 then 48 + d else 87 + d.

(** The escape of a code unit: backslash, u and four hexadecimal
    digits. *)
Definition u_escape (n : N) : str :=
  [92; 117; hexdigit (n / 4096 mod 16); hexdigit (n / 256 mod 16);
   hexdigit (n / 16 mod 16); hexdigit (n mod 16)].

(** A character the pattern [ESCAPE_ASCII] leaves alone: space to tilde,
    except the backslash and the double quote. *)
Definition plain (n : N) : bool :=
  (32 <=? n) && (n <=? 126) && negb (n =? 92) && negb (n =? 34).

(** The replacement of one character: itself, its short escape, its
    four-digit escape, or, above the basic plane, the escapes of the two
    surrogates that stand for it. *)
Definition escape_char (n : N) : str :=
  if plain n then [n]
  else match short_escape n with
       | Some e => [92; e]
       | None =>
         if n <? 65536 then u_escape n
         else
           let n := n - 65536 in
           let s1 := N.lor 55296 (N.land (N.shiftr n 10) 1023) in
           let s2 := N.lor 56320 (N.land n 1023) in
           u_escape s1 ++ u_escape s2
       end.

Fixpoint escape (s : str) : str :=
  match s with
  | [] => []
  | c :: r => escape_char c ++ escape r
  end.

(** [encode_basestring_ascii]: the escaped text between double quotes. *)
Definition encode_basestring_ascii (s : str) : str :=
  34 :: escape s ++ [34].

(** The items of a list, joined by the item separator, a comma and a
    space. *)
Fixpoint join_items (l : list str) : str :=
  match l with
  | [] => []
  | [s] => encode_basestring_ascii s
  | s :: r => encode_basestring_ascii s ++ [44; 32] ++ join_items r
  end.

(** Modelled from the spec: [json_utils.dumps] (tfx/utils/json_utils.py is
    not among the sources), "a function serializing an ordered sequence of
    strings to a string-encoded form": the JSON text of a list of strings,
    as Python's encoder prints it (ASCII only, items between brackets). *)
Definition dumps (l : list str) : str :=
  [91] ++ join_items l ++ [93].

(** *** Decoding *)

Definition is_ws (c : N) : bool :=
  (c =? 32) || (c =? 9) || (c =? 10) || (c =? 13).

Fixpoint skip_ws (s : str) : str :=
  match s with
  | c :: r => if is_ws c then skip_ws r else s
  | [] => []
  end.

(** The value of a hexadecimal digit, of either case. *)
Definition hexval (c : N) : option N :=
  if (48 <=? c) && (c <=? 57) then Some (c - 48)
  else if (97 <=? c) && (c <=? 102) then Some (c - 87)
  else if (65 <=? c) && (c <=? 70) then Some (c - 55)
  else None.

Definition decode_uXXXX (h1 h2 h3 h4 : N) : option N :=
  v1 ← hexval h1; v2 ← hexval h2; v3 ← hexval h3; v4 ← hexval h4;
  Some (((v1 * 16 + v2) * 16 + v3) * 16 + v4).

(** The table [BACKSLASH] of the decoder. *)
Definition backslash (e : N) : option N :=
  if e =? 34 then Some 34
  else if e =? 92 then Some 92
  else if e =? 47 then Some 47
  else if e =? 98 then Some 8
  else if e =? 102 then Some 12
  else if e =? 110 then Some 10
  else if e =? 114 then Some 13
  else if e =? 116 then Some 9
  else None.

Definition is_high_surrogate (u : N) : bool := (55296 <=? u) && (u <=? 56319).
Definition is_low_surrogate (u : N) : bool := (56320 <=? u) && (u <=? 57343).

(** The code point a high and a low surrogate stand for. *)
Definition join_surrogates (uni uni2 : N) : N :=
  65536 + N.lor (N.shiftl (uni - 55296) 10) (uni2 - 56320).

(** One more decoded character in front of what the rest decodes to. *)
Definition push (c : N) (r : option (str * str)) : option (str * str) :=
  '(t, rest) ← r; Some (c :: t, rest).

(** [scanstring], strict: reads the text after an opening double quote up
    to the closing one; gives the decoded string and the remaining input.
    The escape of a high surrogate directly followed by the escape of a low
    surrogate decodes to the one code point the pair stands for; any other
    escaped surrogate decodes to itself.  A raw control character, an
    unknown or broken escape or an unterminated string is an error. *)
Fixpoint scanstring (s : str) : option (str * str) :=
  match s with
  | [] => None
  | c :: r =>
    if c =? 34 then Some ([], r)
    else if c =? 92 then
      match r with
      | [] => None
      | e :: r1 =>
        if e =? 117 then
          match r1 with
          | h1 :: h2 :: h3 :: h4 :: r2 =>
            uni ← decode_uXXXX h1 h2 h3 h4;
            if is_high_surrogate uni then
              match r2 with
              | b :: u :: r3 =>
                if (b =? 92) && (u =? 117) then
                  match r3 with
                  | g1 :: g2 :: g3 :: g4 :: r4 =>
                    uni2 ← decode_uXXXX g1 g2 g3 g4;
                    if is_low_surrogate uni2
                    then push (join_surrogates uni uni2) (scanstring r4)
                    else push uni (scanstring r2)
                  | _ => None
                  end
                else push uni (scanstring r2)
              | _ => push uni (scanstring r2)
              end
            else push uni (scanstring r2)
          | _ => None
          end
        else
          ch ← backslash e;
          push ch (scanstring r1)
      end
    else if c <? 32 then None
    else push c (scanstring r)
  end.

(** The loop of the array decoder, entered at the first character of an
    item: an item, optional white space, then either the closing bracket
    or a comma, optional white space and the next item.  Only string items
    are decoded.  [fuel] bounds the number of items. *)
Fixpoint scan_items (fuel : nat) (s : str) : option (list str * str) :=
  match fuel with
  | O => None
  | S fuel' =>
    match s with
    | c :: r =>
      if c =? 34 then
        '(v, rest) ← scanstring r;
        match skip_ws rest with
        | d :: r1 =>
          if d =? 93 then Some ([v], r1)
          else if d =? 44 then
            '(vs, rest') ← scan_items fuel' (skip_ws r1);
            Some (v :: vs, rest')
          else None
        | [] => None
        end
      else None
    | [] => None
    end
  end.

Definition scan_array (fuel : nat) (s : str) : option (list str * str) :=
  match s with
  | c :: r =>
    if c =? 91 then
      match skip_ws r with
      | d :: r1 =>
        if d =? 93 then Some ([], r1) else scan_items fuel (d :: r1)
      | [] => None
      end
    else None
  | [] => None
  end.

(** Modelled from the spec: [json_utils.loads] (tfx/utils/json_utils.py is
    not among the sources), the decoder of "a string-encoded form decodable
    by the downstream engine", on the JSON texts that are arrays of
    strings: no byte order mark, then white space, the array, white space,
    end of input.  Any other text gives [None]. *)
Definition loads (s : str) : option (list str) :=
  match s with
  | 65279 :: _ => None
  | _ =>
    '(l, rest) ← scan_array (length s) (skip_ws s);
    match skip_ws rest with
    | [] => Some l
    | _ :: _ => None
    end
  end.

End json_utils.

(** No high surrogate of the string is directly followed by a low
    surrogate. *)
Fixpoint no_surrogate_pair (s : str) : bool :=
  match s with
  | a :: r =>
    match r with
    | b :: _ => negb (json_utils.is_high_surrogate a && json_utils.is_low_surrogate b)
    | [] => true
    end && no_surrogate_pair r
  | [] => true
  end.

(** What the string scanner finds after the escape of a high surrogate:
    [Some true] for the escape of a low surrogate, [Some false] for anything
    else it can go on with, [None] for a broken escape. *)
Definition low_escape_ahead (t : str) : option bool :=
  match t with
  | b :: u :: r3 =>
    if ((b =? 92) && (u =? 117))%N then
      match r3 with
      | g1 :: g2 :: g3 :: g4 :: _ =>
        uni2 ← json_utils.decode_uXXXX g1 g2 g3 g4;
        Some (json_utils.is_low_surrogate uni2)
      | _ => None
      end
    else Some false
  | _ => Some false
  end.

(** ** Exceptions and the interpreter state *)

(** A raised exception: its class name and its message. *)
Inductive Exception := Raise (cls msg : string).

(** Artifact type classes of [tfx.types.standard_artifacts]. *)
Inductive ArtifactType :=
  | Examples
  | ExampleStatistics
  | Schema
  | ExampleAnomalies
  | Model.

(** [tfx.types.Channel]: of a channel object only its artifact type is
    read here. *)
Record Channel := { type : ArtifactType }.

(** Severities of [absl.logging]. *)
Inductive Level := DEBUG | INFO | WARNING | ERROR | FATAL.

Record LogRecord := { levelname : Level; message : string }.

(** The part of the interpreter state the constructor touches: the channel
    objects that exist, keyed by their identity, and the records handed to
    the logger, oldest first. *)
Record World := {
  heap : gmap nat Channel;
  log : list LogRecord
}.

(** Code that reads and writes the state and either returns or raises.  The
    state written before an exception is kept. *)
Definition Py (A : Type) : Type := World -> (Exception + A) * World.

Definition ret {A} (a : A) : Py A := fun w => (inr a, w).

Definition bind {A B} (m : Py A) (k : A -> Py B) : Py B :=
  fun w => match m w with
           | (inr a, w') => k a w'
           | (inl e, w') => (inl e, w')
           end.

Definition lift {A} (r : Exception + A) : Py A := fun w => (r, w).

Definition raise {A} (e : Exception) : Py A := fun w => (inl e, w).

Notation "x <- m ;; k" := (bind m (fun x => k))
  (at level 100, m at next level, right associativity).
Notation "m ;; k" := (bind m (fun _ => k))
  (at level 100, right associativity).

Module logging.
(** [logging.info(msg)] *)
Definition info (msg : string) : Py unit :=
  fun w => (inr tt, {| heap := heap w;
                       log := log w ++ [ {| levelname := INFO; message := msg |} ] |}).
End logging.

Module types.
(** [types.Channel(type=t)]: a new channel object, at an identity no
    existing object has. *)
Definition Channel (t : ArtifactType) : Py nat :=
  fun w => let l := fresh (dom (heap w)) in
           (inr l, {| heap := <[l := {| type := t |}]> (heap w); log := log w |}).
End types.

(** ** tfx.types.standard_component_specs *)

Module standard_component_specs.
(** [StatisticsGenSpec]: the two input channels, the two execution
    parameters and the output channel; channels are held by identity. *)
Record StatisticsGenSpec := {
  examples : nat;
  schema : option nat;
  stats_options_json : option str;
  exclude_splits : str;
  statistics : nat
}.
End standard_component_specs.

(** ** The statistics options object

    [tfdv.StatsOptions] belongs to another library, and Python does not
    hold the caller to the annotation: the constructor meets an arbitrary
    object.  What it does with the object is to test its truth value, to
    look its attribute [to_json] up and to call that. *)

(** What [o.to_json()] does: the lookup of the attribute raises (an
    [AttributeError] on an object without it), or the call raises, or the
    call returns a text. *)
Inductive ToJson :=
  | NoAttribute (e : Exception)
  | Raises (e : Exception)
  | Returns (j : str).

(** The interface of an options object: its truth test, which may raise,
    and its [to_json]. *)
Class StatsOptionsLike (T : Type) := {
  truth : T -> Exception + bool;
  to_json : T -> ToJson
}.

(** ** tfx.components.statistics_gen.component *)

Module component.
Import standard_component_specs.

(** The component object: it holds its spec. *)
Record StatisticsGen := { spec : StatisticsGenSpec }.

(** Modelled from the spec: the [outputs] attribute of the base component
    (tfx/dsl/components/base is not among the sources), which "exposes the
    newly created statistics channel under the key statistics": the one
    output channel of the spec record. *)
Definition outputs (c : StatisticsGen) : gmap string nat :=
  {[ "statistics" := statistics (spec c) ]}.

Section Init.
Context {StatsOptions : Type} `{!StatsOptionsLike StatsOptions}.

(** The checks the constructor of the spec class applies to its arguments
    (channel kinds, parameter types), and the checks of the base
    initializer: [None] when the record is accepted. *)
Variable spec_check : gmap nat Channel -> StatisticsGenSpec -> option Exception.
Variable base_check : gmap nat Channel -> StatisticsGenSpec -> option Exception.

(** Modelled from the spec: the constructor of [StatisticsGenSpec]
    (tfx/types is not among the sources), which gives the "immutable record
    aggregating" its five arguments, unless its check of the arguments
    raises; it writes nothing to the state. *)
Definition new_spec (spec : StatisticsGenSpec) : Py StatisticsGenSpec :=
  fun w => match spec_check (heap w) spec with
           | Some e => (inl e, w)
           | None => (inr spec, w)
           end.

(** Modelled from the spec: the initializer of the base component
    (tfx/dsl/components/base is not among the sources).  It raises what
    its check reports and otherwise gives "a fully initialized component
    definition object holding the spec record"; it writes nothing to the
    state. *)
Definition super_init (spec : StatisticsGenSpec) : Py StatisticsGen :=
  fun w => match base_check (heap w) spec with
           | Some e => (inl e, w)
           | None => (inr {| spec := spec |}, w)
           end.

(** [StatisticsGen.__init__] *)
Definition __init__ (examples : nat) (schema : option nat)
    (stats_options : option StatsOptions)
    (exclude_splits : option (list str)) : Py StatisticsGen :=
  exclude_splits <-
    match exclude_splits with
    | None =>
      logging.info "Excluding no splits because exclude_splits is not set." ;;
      ret []
    | Some l => ret l
    end ;;
  statistics <- types.Channel ExampleStatistics ;;
  stats_options_json <-
    match stats_options with
    | Some o =>
      b <- lift (truth o) ;;
      if b then
        match to_json o with
        | NoAttribute e => raise e
        | Raises e => raise e
        | Returns j => ret (Some j)
        end
      else ret None
    | None => ret None
    end ;;
  spec <- new_spec
    {| standard_component_specs.examples := examples;
       standard_component_specs.schema := schema;
       standard_component_specs.stats_options_json := stats_options_json;
       standard_component_specs.exclude_splits := json_utils.dumps exclude_splits;
       standard_component_specs.statistics := statistics |} ;;
  super_init spec.
End Init.
End component.

(** The truth test Python applies to an optional object: [None] is false,
    any other object decides for itself, and may raise. *)
Definition truthy {T : Type} `{!StatsOptionsLike T} (o : option T) : Exception + bool :=
  match o with
  | Some x => truth x
  | None => inr false
  end.

(** Line 80 evaluates to [j] without raising: the options are omitted or
    test false and [j] is [None], or they test true and [j] is the text
    their [to_json] returns. *)
Definition serialized {T : Type} `{!StatsOptionsLike T}
    (o : option T) (j : option str) : Prop :=
  match o with
  | Some x =>
    (truth x = inr false /\ j = None)
    \/ (truth x = inr true /\ exists t, to_json x = Returns t /\ j = Some t)
  | None => j = None
  end.

(** The record lines 81 to 86 pass to the spec constructor, in a run
    started in state [w] in which line 80 gave [j]. *)
Definition built_spec (examples : nat) (schema : option nat) (j : option str)
    (exclude_splits : option (list str)) (w : World)
    : standard_component_specs.StatisticsGenSpec :=
  {| standard_component_specs.examples := examples;
     standard_component_specs.schema := schema;
     standard_component_specs.stats_options_json := j;
     standard_component_specs.exclude_splits :=
       json_utils.dumps (default [] exclude_splits);
     standard_component_specs.statistics := fresh (dom (heap w)) |}.

(** The record of the one message the constructor logs. *)
Definition no_splits_record : LogRecord :=
  {| levelname := INFO;
     message := "Excluding no splits because exclude_splits is not set." |}.

(** ** Objects to run the constructor on *)

Module sample.
(** An options object given by what its truth test and its [to_json]
    do. *)
Record Options := { as_bool : Exception + bool; json : ToJson }.

#[global] Instance Options_like : StatsOptionsLike Options :=
  {| truth := as_bool; to_json := json |}.

Definition accept : gmap nat Channel -> standard_component_specs.StatisticsGenSpec -> option Exception :=
  fun _ _ => None.

(** A check that refuses every spec. *)
Definition refuse : gmap nat Channel -> standard_component_specs.StatisticsGenSpec -> option Exception :=
  fun _ _ => Some (Raise "TypeError" "refused").

(** A stand-in for the check of the channel kinds: the examples argument
    must be a channel of [Examples], a schema argument a channel of
    [Schema].  The message of the framework, which prints the channel, is
    not reproduced. *)
Definition check_kinds (h : gmap nat Channel)
    (s : standard_component_specs.StatisticsGenSpec) : option Exception :=
  match h !! standard_component_specs.examples s with
  | Some {| type := Examples |} =>
    match standard_component_specs.schema s with
    | None => None
    | Some l =>
      match h !! l with
      | Some {| type := Schema |} => None
      | _ => Some (Raise "TypeError" EmptyString)
      end
    end
  | _ => Some (Raise "TypeError" EmptyString)
  end.

(** A state with an examples channel at 0 and a schema channel at 1. *)
Definition w0 : World :=
  {| heap := {[ 0 := {| type := Examples |}; 1 := {| type := Schema |} ]}; log := [] |}.

Definition plain_options : Options :=
  {| as_bool := inr true; json := Returns (py "{}") |}.

(** Options of a class whose instances count as false, as a class
    defining [__bool__] or [__len__] can make them. *)
Definition falsy_options : Options :=
  {| as_bool := inr false; json := Returns (py "{}") |}.

(** Options whose [to_json] raises. *)
Definition broken_options : Options :=
  {| as_bool := inr true;
     json := Raises (Raise "ValueError" "not serializable") |}.

(** Options that count as false and whose [to_json] would raise. *)
Definition falsy_broken_options : Options :=
  {| as_bool := inr false;
     json := Raises (Raise "ValueError" "not serializable") |}.



(** The two surrogates that stand for U+1F600, as two code points of one
    string, and the code point itself. *)
Definition lone_surrogates : str := [55357%N; 56832%N].
Definition joined : str := [128512%N].

(** The component a run started in [w0] with examples 0 returns, and the
    state it leaves, given the other fields and the log. *)
Definition returned (schema : option nat) (j : option str) (text : str)
    : component.StatisticsGen :=
  {| component.spec :=
       {| standard_component_specs.examples := 0;
          standard_component_specs.schema := schema;
          standard_component_specs.stats_options_json := j;
          standard_component_specs.exclude_splits := text;
          standard_component_specs.statistics := 2 |} |}.

Definition after (records : list LogRecord) : World :=
  {| heap := <[2 := {| type := ExampleStatistics |}]> (heap w0);
     log := records |}.
End sample.

(** * The JSON codec *)

Section Codec.
Import json_utils.
Local Open Scope N_scope.

#[local] Arguments decode_uXXXX : simpl never.
#[local] Arguments is_high_surrogate : simpl never.
#[local] Arguments is_low_surrogate : simpl never.
#[local] Arguments join_surrogates : simpl never.
#[local] Arguments hexdigit : simpl never.
#[local] Arguments N.div : simpl never.
#[local] Arguments N.modulo : simpl never.

Lemma hexval_hexdigit (d : N) : d < 16 -> hexval (hexdigit d) = Some d.
Proof.
  intros Hd. unfold hexdigit, hexval.
  destruct (N.ltb_spec d 10).
  - replace (48 <=? 48 + d) with true by (symmetry; apply N.leb_le; lia).
    replace (48 + d <=? 57) with true by (symmetry; apply N.leb_le; lia).
    simpl. f_equal. lia.
  - replace (48 <=? 87 + d) with true by (symmetry; apply N.leb_le; lia).
    replace (87 + d <=? 57) with false by (symmetry; apply N.leb_gt; lia).
    replace (97 <=? 87 + d) with true by (symmetry; apply N.leb_le; lia).
    replace (87 + d <=? 102) with true by (symmetry; apply N.leb_le; lia).
    simpl. f_equal. lia.
Qed.

Lemma decode_u_escape (n : N) :
  n < 65536 ->
  decode_uXXXX (hexdigit (n / 4096 mod 16)) (hexdigit (n / 256 mod 16))
               (hexdigit (n / 16 mod 16)) (hexdigit (n mod 16)) = Some n.
Proof.
  intros Hn. unfold decode_uXXXX.
  rewrite !hexval_hexdigit by (apply N.mod_lt; lia). simpl. f_equal.
  zify. Z.to_euclidean_division_equations. lia.
Qed.

(** Bitwise or is addition when the operands share no bit. *)
Lemma lor_add (a b k : N) :
  a mod 2 ^ k = 0 -> b < 2 ^ k -> N.lor a b = a + b.
Proof.
  intros Ha Hb.
  assert (Hland : N.land a b = 0).
  { apply N.bits_inj_0. intros i. rewrite N.land_spec.
    destruct (N.lt_ge_cases i k) as [Hi|Hi].
    - rewrite (N.Div0.div_mod a (2 ^ k)), Ha, N.add_0_r, N.mul_comm.
      by rewrite N.mul_pow2_bits_low.
    - rewrite <- (N.mod_small b (2 ^ k)) by done.
      rewrite N.mod_pow2_bits_high by done. apply andb_false_r. }
  by rewrite <- N.lxor_lor, <- N.add_nocarry_lxor.
Qed.

(** The two halves of the escape of a code point above the basic plane. *)
Lemma surrogates_of_astral (c : N) :
  65536 <= c < 1114112 ->
  let v := c - 65536 in
  let s1 := N.lor 55296 (N.land (N.shiftr v 10) 1023) in
  let s2 := N.lor 56320 (N.land v 1023) in
  s1 < 65536 /\ s2 < 65536
  /\ is_high_surrogate s1 = true /\ is_low_surrogate s2 = true
  /\ join_surrogates s1 s2 = c.
Proof.
  intros Hc v s1 s2.
  assert (Hv : v < 1048576) by (subst v; lia).
  assert (Hs1 : s1 = 55296 + v / 1024).
  { subst s1. change 1023 with (N.ones 10).
    rewrite N.land_ones, N.shiftr_div_pow2. change (2 ^ 10) with 1024.
    rewrite (lor_add _ _ 10); [|reflexivity|apply N.mod_lt; lia].
    f_equal. apply N.mod_small. apply N.Div0.div_lt_upper_bound. lia. }
  assert (Hs2 : s2 = 56320 + v mod 1024).
  { subst s2. change 1023 with (N.ones 10).
    rewrite N.land_ones. change (2 ^ 10) with 1024.
    rewrite (lor_add _ _ 10); [done|reflexivity|apply N.mod_lt; lia]. }
  assert (Hq : v / 1024 < 1024) by (apply N.Div0.div_lt_upper_bound; lia).
  assert (Hr : v mod 1024 < 1024) by (apply N.mod_lt; lia).
  pose proof (N.Div0.div_mod v 1024) as Hdm.
  assert (Hc' : c = v + 65536) by (subst v; lia).
  clearbody v s1 s2. subst s1 s2 c.
  generalize dependent (v / 1024). generalize dependent (v mod 1024).
  intros r Hr q Hq Hdm.
  unfold is_high_surrogate, is_low_surrogate, join_surrogates.
  split; [lia|]. split; [lia|].
  split; [apply andb_true_iff; split; apply N.leb_le; lia|].
  split; [apply andb_true_iff; split; apply N.leb_le; lia|].
  replace (55296 + q - 55296) with q by lia.
  replace (56320 + r - 56320) with r by lia.
  rewrite N.shiftl_mul_pow2. change (2 ^ 10) with 1024.
  rewrite (lor_add _ _ 10); [lia|apply N.Div0.mod_mul|done].
Qed.

(** Turns the boolean tests on code points in hypotheses into
    propositions and decides those of the goal. *)
Ltac bool_facts :=
  repeat match goal with
         | H : context [andb _ _ = true] |- _ => rewrite andb_true_iff in H
         | H : context [andb _ _ = false] |- _ => rewrite andb_false_iff in H
         | H : context [negb _ = true] |- _ => rewrite negb_true_iff in H
         | H : context [(_ <=? _) = true] |- _ => rewrite N.leb_le in H
         | H : context [(_ <=? _) = false] |- _ => rewrite N.leb_gt in H
         | H : context [(_ <? _) = true] |- _ => rewrite N.ltb_lt in H
         | H : context [(_ <? _) = false] |- _ => rewrite N.ltb_ge in H
         | H : context [(_ =? _) = true] |- _ => rewrite N.eqb_eq in H
         | H : context [(_ =? _) = false] |- _ => rewrite N.eqb_neq in H
         end.

Ltac decide_test t :=
  match t with
  | (?a =? ?b) => destruct (N.eqb_spec a b); [try lia|try lia]
  | (?a <? ?b) => destruct (N.ltb_spec a b); [try lia|try lia]
  | (?a <=? ?b) => destruct (N.leb_spec a b); [try lia|try lia]
  end.

Lemma scanstring_plain (c : N) (t : str) :
  plain c = true -> scanstring (c :: t) = push c (scanstring t).
Proof.
  unfold plain. intros H. bool_facts. simpl.
  decide_test (c =? 34). decide_test (c =? 92). decide_test (c <? 32).
  reflexivity.
Qed.

Lemma short_escape_backslash (c e : N) :
  short_escape c = Some e -> e <> 117 /\ backslash e = Some c.
Proof.
  unfold short_escape.
  repeat match goal with
         | |- context [if ?a =? ?b then _ else _] =>
           destruct (N.eqb_spec a b); [intros [= <-]; subst; by split|]
         end.
  discriminate.
Qed.

Lemma scanstring_short (c e : N) (t : str) :
  short_escape c = Some e -> scanstring (92 :: e :: t) = push c (scanstring t).
Proof.
  intros [He Hb]%short_escape_backslash. simpl.
  decide_test (e =? 117). by rewrite Hb.
Qed.

Lemma scanstring_u_single (c : N) (t : str) :
  c < 65536 ->
  (is_high_surrogate c = true -> low_escape_ahead t = Some false) ->
  scanstring (u_escape c ++ t) = push c (scanstring t).
Proof.
  intros Hc Hahead. simpl. rewrite decode_u_escape by done. simpl.
  destruct (is_high_surrogate c); [|done].
  specialize (Hahead eq_refl).
  destruct t as [|b [|u r3]]; [done..|]. simpl in Hahead.
  destruct ((b =? 92) && (u =? 117)); [|done].
  destruct r3 as [|g1 [|g2 [|g3 [|g4 r4]]]]; try discriminate Hahead.
  destruct (decode_uXXXX g1 g2 g3 g4) as [uni2|]; [|discriminate Hahead].
  simpl in *. by injection Hahead as ->.
Qed.

Lemma scanstring_u_pair (c : N) (t : str) :
  65536 <= c < 1114112 ->
  let v := c - 65536 in
  scanstring (u_escape (N.lor 55296 (N.land (N.shiftr v 10) 1023))
              ++ u_escape (N.lor 56320 (N.land v 1023)) ++ t)
  = push c (scanstring t).
Proof.
  intros Hc v.
  destruct (surrogates_of_astral c Hc) as (H1 & H2 & Hhi & Hlo & Hjoin).
  fold v in H1, H2, Hhi, Hlo, Hjoin.
  generalize dependent (N.lor 55296 (N.land (N.shiftr v 10) 1023)).
  generalize dependent (N.lor 56320 (N.land v 1023)).
  intros s2 H2 Hlo s1 H1 Hhi Hjoin.
  simpl. rewrite !decode_u_escape by done. simpl.
  rewrite Hhi. simpl. by rewrite Hlo, Hjoin.
Qed.

Lemma high_not_low (u : N) :
  is_high_surrogate u = true -> is_low_surrogate u = false.
Proof.
  unfold is_high_surrogate, is_low_surrogate. intros H. bool_facts.
  apply andb_false_iff. left. apply N.leb_gt. lia.
Qed.

(** Reading back the escape of one code point. *)
Lemma scanstring_escape_char (c : N) (t : str) :
  c < 1114112 ->
  (is_high_surrogate c = true -> low_escape_ahead t = Some false) ->
  scanstring (escape_char c ++ t) = push c (scanstring t).
Proof.
  intros Hc Hahead. unfold escape_char.
  destruct (plain c) eqn:Hplain; [by apply scanstring_plain|].
  destruct (short_escape c) as [e|] eqn:Hshort; [by apply scanstring_short|].
  destruct (N.ltb_spec c 65536).
  - by apply scanstring_u_single.
  - rewrite <- app_assoc. by apply scanstring_u_pair.
Qed.

(** After the escape of a well-formed string whose first code point is
    not a low surrogate, the scanner finds no escape of a low surrogate. *)
Lemma low_escape_ahead_escape (s rest : str) :
  valid_str s = true ->
  match s with
  | d :: _ => is_low_surrogate d = false
  | [] => True
  end ->
  low_escape_ahead (escape s ++ 34 :: rest) = Some false.
Proof.
  destruct s as [|d r]; [by destruct rest|].
  simpl valid_str. intros [Hd _]%andb_true_iff Hlow. apply N.ltb_lt in Hd.
  simpl escape. rewrite <- app_assoc.
  generalize (escape r ++ 34 :: rest). intros t.
  unfold escape_char.
  destruct (plain d) eqn:Hplain.
  { unfold plain in Hplain. bool_facts. destruct t as [|u t]; [done|]. simpl.
    decide_test (d =? 92). done. }
  destruct (short_escape d) as [e|] eqn:Hshort.
  { apply short_escape_backslash in Hshort as [He _]. simpl.
    decide_test (e =? 117). done. }
  destruct (N.ltb_spec d 65536).
  - simpl. rewrite decode_u_escape by done. simpl. by rewrite Hlow.
  - destruct (surrogates_of_astral d) as (H1 & _ & Hhi & _); [lia|].
    generalize dependent (N.lor 55296 (N.land (N.shiftr (d - 65536) 10) 1023)).
    intros s1 H1 Hhi.
    simpl. rewrite decode_u_escape by done. simpl.
    by rewrite (high_not_low _ Hhi).
Qed.

(** The scanner reads the escape of a well-formed string back, up to the
    closing quote. *)
Lemma scanstring_escape (s rest : str) :
  valid_str s = true -> no_surrogate_pair s = true ->
  scanstring (escape s ++ 34 :: rest) = Some (s, rest).
Proof.
  induction s as [|c r IH]; [reflexivity|].
  simpl valid_str. simpl no_surrogate_pair.
  intros [Hc Hr]%andb_true_iff [Hpair Hnp]%andb_true_iff.
  apply N.ltb_lt in Hc.
  simpl escape. rewrite <- app_assoc.
  rewrite scanstring_escape_char; [by rewrite IH| done |].
  intros Hhigh. apply low_escape_ahead_escape; [done|].
  destruct r as [|d r']; [done|].
  rewrite Hhigh in Hpair. simpl in Hpair. by apply negb_true_iff in Hpair.
Qed.

Lemma encode_basestring_ascii_app (s rest : str) :
  encode_basestring_ascii s ++ rest = 34 :: escape s ++ 34 :: rest.
Proof. unfold encode_basestring_ascii. simpl. by rewrite <- app_assoc. Qed.

Lemma join_items_cons (s : str) (l : list str) (rest : str) :
  l <> [] ->
  join_items (s :: l) ++ rest
  = 34 :: escape s ++ 34 :: 44 :: 32 :: join_items l ++ rest.
Proof.
  destruct l as [|s' l]; [done|]. intros _.
  change (join_items (s :: s' :: l))
    with (encode_basestring_ascii s ++ [44; 32] ++ join_items (s' :: l)).
  by rewrite <- !app_assoc, encode_basestring_ascii_app.
Qed.

(** The text of a non-empty list starts with the quote of its first
    item. *)
Lemma join_items_head (l : list str) (rest : str) :
  l <> [] -> exists r, join_items l ++ rest = 34 :: r.
Proof.
  destruct l as [|s [|s' l]]; [done| |]; intros _.
  - change (join_items [s]) with (encode_basestring_ascii s).
    rewrite encode_basestring_ascii_app. eauto.
  - rewrite join_items_cons by done. eauto.
Qed.

Lemma skip_ws_join_items (l : list str) (rest : str) :
  l <> [] -> skip_ws (join_items l ++ rest) = join_items l ++ rest.
Proof. intros [r ->]%(join_items_head _ rest). reflexivity. Qed.

(** The item loop reads the items of a non-empty list of well-formed
    strings back, given one unit of fuel per item. *)
Lemma scan_items_join_items (l : list str) (rest : str) (fuel : nat) :
  l <> [] -> (length l <= fuel)%nat ->
  Forall (fun s => valid_str s = true) l ->
  Forall (fun s => no_surrogate_pair s = true) l ->
  scan_items fuel (join_items l ++ 93 :: rest) = Some (l, rest).
Proof.
  revert fuel. induction l as [|s l IH]; [done|]. intros fuel _ Hfuel Hv Hn.
  apply Forall_cons in Hv as [Hs Hv]. apply Forall_cons in Hn as [Hs' Hn].
  destruct fuel as [|fuel]; [simpl in Hfuel; lia|].
  destruct l as [|s' l].
  - change (join_items [s]) with (encode_basestring_ascii s).
    rewrite encode_basestring_ascii_app. simpl.
    by rewrite scanstring_escape.
  - rewrite join_items_cons by done.
    pose proof (IH fuel) as IHf.
    pose proof (skip_ws_join_items (s' :: l) (93 :: rest)) as Hws.
    set (tl := join_items (s' :: l) ++ 93 :: rest) in *.
    simpl. rewrite scanstring_escape by done. simpl.
    rewrite Hws, IHf; [done|done| |done|done|done]. simpl in *. lia.
Qed.

Lemma length_join_items (l : list str) :
  (length l <= length (join_items l) + 1)%nat.
Proof.
  induction l as [|s [|s' l] IH]; [simpl; lia|simpl; lia|].
  change (join_items (s :: s' :: l))
    with (encode_basestring_ascii s ++ [44; 32] ++ join_items (s' :: l)).
  rewrite !length_app. simpl in *. lia.
Qed.

(** Decoding inverts encoding on every list of well-formed strings. *)
Lemma loads_dumps (l : list str) :
  Forall (fun s => valid_str s = true) l ->
  Forall (fun s => no_surrogate_pair s = true) l ->
  loads (dumps l) = Some l.
Proof.
  intros Hv Hn. destruct l as [|s l]; [reflexivity|].
  unfold loads.
  assert (Hlen : (length (s :: l) <= length (dumps (s :: l)))%nat).
  { unfold dumps. pose proof (length_join_items (s :: l)).
    rewrite !length_app. simpl in *. lia. }
  revert Hlen. generalize (length (dumps (s :: l))). intros n Hlen.
  pose proof (skip_ws_join_items (s :: l) [93]) as Hws.
  pose proof (scan_items_join_items (s :: l) [] n) as Hscan.
  destruct (join_items_head (s :: l) [93]) as [r Hr]; [done|].
  change (dumps (s :: l)) with (91 :: join_items (s :: l) ++ [93]).
  set (J := join_items (s :: l) ++ [93]) in *.
  simpl. rewrite Hws by done. rewrite Hr. simpl.
  rewrite <- Hr. by rewrite Hscan.
Qed.

Example dumps_no_splits : dumps [] = py "[]".
Proof. reflexivity. Qed.

Example dumps_eval : dumps [py "eval"] = [91; 34] ++ py "eval" ++ [34; 93].
Proof. reflexivity. Qed.

Example loads_spaced :
  loads (py " [ " ++ [34] ++ py "a" ++ [34] ++ py " ] ") = Some [py "a"].
Proof. reflexivity. Qed.

Example loads_unterminated : loads ([91; 34] ++ py "a]") = None.
Proof. reflexivity. Qed.

(** A code point above the basic plane is written as the escapes of two
    surrogates and read back as itself. *)
Example dumps_astral :
  dumps [[128512]] = [91; 34] ++ py "\ud83d\ude00" ++ [34; 93]
  /\ loads (dumps [[128512]]) = Some [[128512]].
Proof. split; reflexivity. Qed.

(** Two surrogates that stand side by side in a string are written as the
    same text, and so read back as one code point. *)
Example loads_dumps_lone_surrogates :
  dumps [[55357; 56832]] = dumps [[128512]]
  /\ loads (dumps [[55357; 56832]]) = Some [[128512]].
Proof. split; reflexivity. Qed.
End Codec.

(** * The constructor *)

Section Construction.
Import component standard_component_specs.
Context {StatsOptions : Type} `{!StatsOptionsLike StatsOptions}.
Variable spec_check : gmap nat Channel -> StatisticsGenSpec -> option Exception.
Variable base_check : gmap nat Channel -> StatisticsGenSpec -> option Exception.

Implicit Types (examples : nat) (schema : option nat).
Implicit Types (stats_options : option StatsOptions).
Implicit Types (exclude_splits : option (list str)).
Implicit Types (w : World) (c : StatisticsGen) (e : Exception).

(** Splits a run of the constructor into the cases of its branches and
    of its fallible calls. *)
Ltac init_cases so es :=
  unfold __init__, bind, ret, lift, raise, new_spec, super_init,
    logging.info, types.Channel;
  destruct es as [?l|];
  (destruct so as [?o|];
   [ destruct (truth o) as [?e|[|]] eqn:?;
     [|destruct (to_json o) as [?e|?e|?j] eqn:?|] |]);
  simpl;
  repeat match goal with
         | |- context [spec_check (<[?l:=?x]> ?h) ?s] =>
           destruct (spec_check (<[l:=x]> h) s) eqn:?
         end;
  simpl;
  repeat match goal with
         | |- context [base_check (<[?l:=?x]> ?h) ?s] =>
           destruct (base_check (<[l:=x]> h) s) eqn:?
         end;
  simpl.

(** The state after a run, whether it returned or raised: one channel
    allocated, and one record logged if the splits were defaulted. *)
Lemma init_state examples schema stats_options exclude_splits w :
  (__init__ spec_check base_check examples schema stats_options exclude_splits w).2
  = {| heap := <[fresh (dom (heap w)) := {| type := ExampleStatistics |}]> (heap w);
       log := log w ++ match exclude_splits with
                       | None => [no_splits_record]
                       | Some _ => []
                       end |}.
Proof.
  init_cases stats_options exclude_splits;
    rewrite ?app_nil_r; reflexivity.
Qed.

(** What a run that returned has built, and what let it through. *)
Lemma init_returns examples schema stats_options exclude_splits w c w' :
  __init__ spec_check base_check examples schema stats_options exclude_splits w
    = (inr c, w') ->
  exists j,
    spec c = built_spec examples schema j exclude_splits w
    /\ serialized stats_options j
    /\ spec_check (heap w') (spec c) = None
    /\ base_check (heap w') (spec c) = None.
Proof.
  unfold serialized.
  init_cases stats_options exclude_splits; intros; simplify_eq;
    eexists; (split; [reflexivity|]); simpl; eauto 10.
Qed.


(** A run returns when line 80 does not raise and the two checks accept
    the record built. *)
Lemma init_accepted examples schema stats_options exclude_splits w j :
  let run := __init__ spec_check base_check examples schema stats_options
               exclude_splits w in
  serialized stats_options j ->
  spec_check (heap run.2) (built_spec examples schema j exclude_splits w) = None ->
  base_check (heap run.2) (built_spec examples schema j exclude_splits w) = None ->
  run.1 = inr {| spec := built_spec examples schema j exclude_splits w |}.
Proof.
  unfold serialized, built_spec.
  init_cases stats_options exclude_splits; intros; simpl in *;
    repeat match goal with
           | H : _ \/ _ |- _ => destruct H
           | H : _ /\ _ |- _ => destruct H
           | H : exists _, _ |- _ => destruct H
           end; simplify_eq; try reflexivity; congruence.
Qed.

(** The heap after a run, whether it returned or raised. *)
Lemma init_heap examples schema stats_options exclude_splits w r w' :
  __init__ spec_check base_check examples schema stats_options exclude_splits w
    = (r, w') ->
  heap w' = <[fresh (dom (heap w)) := {| type := ExampleStatistics |}]> (heap w).
Proof.
  intros Hrun.
  pose proof (init_state examples schema stats_options exclude_splits w) as Hst.
  rewrite Hrun in Hst. simpl in Hst. by subst w'.
Qed.

(** The log after a run, whether it returned or raised. *)
Lemma init_log examples schema stats_options exclude_splits w r w' :
  __init__ spec_check base_check examples schema stats_options exclude_splits w
    = (r, w') ->
  log w' = log w ++ match exclude_splits with
                    | None => [no_splits_record]
                    | Some _ => []
                    end.
Proof.
  intros Hrun.
  pose proof (init_state examples schema stats_options exclude_splits w) as Hst.
  rewrite Hrun in Hst. simpl in Hst. by subst w'.
Qed.

(** A run whose line 80 and whose two checks do not raise returns the
    component that holds the record built. *)
Lemma init_produces examples schema stats_options exclude_splits w r w' j :
  __init__ spec_check base_check examples schema stats_options exclude_splits w
    = (r, w') ->
  serialized stats_options j ->
  spec_check (heap w') (built_spec examples schema j exclude_splits w) = None ->
  base_check (heap w') (built_spec examples schema j exclude_splits w) = None ->
  r = inr {| spec := built_spec examples schema j exclude_splits w |}.
Proof.
  intros Hrun Hj Hs Hb.
  pose proof (init_accepted examples schema stats_options exclude_splits w j)
    as Hacc.
  simpl in Hacc. rewrite Hrun in Hacc. simpl in Hacc. by apply Hacc.
Qed.

(** C1: when [exclude_splits] is omitted, the run logs exactly one
    record, the informational message about excluding no splits, whether it
    goes on to return or to raise.  The component it returns has the text of
    the empty list in the exclude-splits field of its spec, which decodes to
    the empty list; and it does return that component whenever line 80 and
    the two checks of the record do not raise. *)
Theorem omitted_exclude_splits_logs_once_and_decodes_empty
    examples schema stats_options w r w' :
  __init__ spec_check base_check examples schema stats_options None w = (r, w') ->
  log w' = log w ++ [no_splits_record]
  /\ levelname no_splits_record = INFO
  /\ (forall c, r = inr c ->
        exclude_splits (spec c) = json_utils.dumps []
        /\ json_utils.loads (exclude_splits (spec c)) = Some [])
  /\ (forall j,
        serialized stats_options j ->
        spec_check (heap w') (built_spec examples schema j None w) = None ->
        base_check (heap w') (built_spec examples schema j None w) = None ->
        exists c, r = inr c
                  /\ json_utils.loads (exclude_splits (spec c)) = Some []).
Proof.
  intros Hrun. split; [exact (init_log _ _ _ _ _ _ _ Hrun)|].
  split; [reflexivity|]. split.
  - intros c ->. apply init_returns in Hrun as (j & Hspec & _).
    by rewrite Hspec.
  - intros j Hj Hs Hb. eexists. split; [by eapply init_produces|reflexivity].
Qed.

(** C2, as amended: a supplied non-empty list of split names in which no
    high surrogate is directly followed by a low surrogate is read back from
    the exclude-splits field of the spec, item for item and in order. *)
Theorem supplied_exclude_splits_round_trip
    examples schema stats_options (l : list str) w c w' :
  l <> [] ->
  Forall (fun s => valid_str s = true) l ->
  Forall (fun s => no_surrogate_pair s = true) l ->
  __init__ spec_check base_check examples schema stats_options (Some l) w
    = (inr c, w') ->
  json_utils.loads (exclude_splits (spec c)) = Some l.
Proof.
  intros _ Hv Hn Hrun. apply init_returns in Hrun as (j & Hspec & _).
  rewrite Hspec. simpl. by apply loads_dumps.
Qed.

(** C3, as amended: for supplied options whose truth value is true, the
    serialized-options field of the spec is what the object's own
    [to_json] returned. *)
Theorem truthy_stats_options_serialized_by_to_json
    examples schema (o : StatsOptions) exclude_splits w c w' :
  truth o = inr true ->
  __init__ spec_check base_check examples schema (Some o) exclude_splits w
    = (inr c, w') ->
  exists j, to_json o = Returns j /\ stats_options_json (spec c) = Some j.
Proof.
  intros Ho Hrun. apply init_returns in Hrun as (j & Hspec & Hj & _).
  destruct Hj as [[Hf _]|(_ & t & Ht & ->)]; [congruence|].
  exists t. by rewrite Hspec.
Qed.

(** C4: with [stats_options] omitted, the serialized-options field of
    the spec is [None]. *)
Theorem omitted_stats_options_gives_None
    examples schema exclude_splits w c w' :
  __init__ spec_check base_check examples schema None exclude_splits w
    = (inr c, w') ->
  stats_options_json (spec c) = None.
Proof.
  intros Hrun. apply init_returns in Hrun as (j & Hspec & -> & _).
  by rewrite Hspec.
Qed.

(** The channel a run allocates: absent before, an example-statistics
    channel after. *)
Lemma init_statistics examples schema stats_options exclude_splits w c w' :
  __init__ spec_check base_check examples schema stats_options exclude_splits w
    = (inr c, w') ->
  heap w !! statistics (spec c) = None
  /\ heap w' !! statistics (spec c) = Some {| type := ExampleStatistics |}.
Proof.
  intros Hrun. pose proof (init_heap _ _ _ _ _ _ _ Hrun) as Hheap.
  apply init_returns in Hrun as (j & Hspec & _).
  rewrite Hspec, Hheap. simpl. split.
  - apply not_elem_of_dom, is_fresh.
  - apply lookup_insert_eq.
Qed.

(** C5: the outputs mapping of the constructed component has the single
    key statistics; its value is the channel the run created, which did
    not exist before the run, and so is neither the examples channel nor
    the schema channel passed in. *)
Theorem outputs_only_the_new_statistics_channel
    examples schema stats_options exclude_splits w c w' :
  is_Some (heap w !! examples) ->
  (forall s, schema = Some s -> is_Some (heap w !! s)) ->
  __init__ spec_check base_check examples schema stats_options exclude_splits w
    = (inr c, w') ->
  exists l,
    outputs c = {[ "statistics" := l ]}
    /\ dom (outputs c) = {[ "statistics" ]}
    /\ heap w !! l = None
    /\ heap w' !! l = Some {| type := ExampleStatistics |}
    /\ l <> examples
    /\ schema <> Some l.
Proof.
  intros Hex Hsch Hrun.
  destruct (init_statistics _ _ _ _ _ _ _ Hrun) as [Hnew Halloc].
  exists (statistics (spec c)). unfold outputs.
  split; [reflexivity|]. split; [apply dom_singleton_L|].
  split; [exact Hnew|]. split; [exact Halloc|]. split.
  - intros Heq. rewrite Heq in Hnew. rewrite Hnew in Hex. by destruct Hex.
  - intros Heq. destruct (Hsch _ Heq) as [x Hx]. congruence.
Qed.

(** C6: whatever the arguments, the channel in the statistics field of
    the spec has artifact type [ExampleStatistics]. *)
Theorem statistics_channel_is_example_statistics
    examples schema stats_options exclude_splits w c w' :
  __init__ spec_check base_check examples schema stats_options exclude_splits w
    = (inr c, w') ->
  type <$> heap w' !! statistics (spec c) = Some ExampleStatistics.
Proof.
  intros Hrun. destruct (init_statistics _ _ _ _ _ _ _ Hrun) as [_ ->].
  reflexivity.
Qed.


(** C8, as amended: the state a run leaves differs from the one it
    started in by the new statistics channel and, only when
    [exclude_splits] was omitted, by the one logged record.  With a supplied
    list nothing is logged; the component returned has the text of that
    list in its exclude-splits field, which decodes to the list when no
    string of it has a high surrogate directly followed by a low one; and
    the run does return it whenever line 80 and the two checks of the
    record do not raise. *)
Theorem supplied_exclude_splits_decodes_and_logs_nothing
    examples schema stats_options exclude_splits w r w' :
  __init__ spec_check base_check examples schema stats_options exclude_splits w
    = (r, w') ->
  heap w' = <[fresh (dom (heap w)) := {| type := ExampleStatistics |}]> (heap w)
  /\ (exclude_splits = None -> log w' = log w ++ [no_splits_record])
  /\ forall l, exclude_splits = Some l ->
       log w' = log w
       /\ (forall c, r = inr c ->
             standard_component_specs.exclude_splits (spec c) = json_utils.dumps l
             /\ (Forall (fun s => valid_str s = true) l ->
                 Forall (fun s => no_surrogate_pair s = true) l ->
                 json_utils.loads
                   (standard_component_specs.exclude_splits (spec c)) = Some l))
       /\ (forall j,
             serialized stats_options j ->
             spec_check (heap w')
               (built_spec examples schema j exclude_splits w) = None ->
             base_check (heap w')
               (built_spec examples schema j exclude_splits w) = None ->
             exists c, r = inr c
                       /\ standard_component_specs.exclude_splits (spec c)
                          = json_utils.dumps l).
Proof.
  intros Hrun. pose proof (init_log _ _ _ _ _ _ _ Hrun) as Hlog.
  split; [exact (init_heap _ _ _ _ _ _ _ Hrun)|]. split.
  - intros ->. exact Hlog.
  - intros l ->. split; [by rewrite app_nil_r in Hlog|]. split.
    + intros c ->. apply init_returns in Hrun as (j & Hspec & _).
      rewrite Hspec. simpl. split; [done|]. intros. by apply loads_dumps.
    + intros j Hj Hs Hb. eexists. split; [by eapply init_produces|done].
Qed.


(** C10: an explicitly empty list gives the same run as an omitted
    argument, except that nothing is logged: the two runs have the same
    result, and the component returned has the text of the empty list in its
    exclude-splits field, which decodes to the empty list, and the statistics
    channel in it; both runs do return it whenever line 80 and the two checks
    of the record do not raise. *)
Theorem empty_exclude_splits_same_as_omitted_without_log
    examples schema stats_options w r1 w1 r2 w2 :
  __init__ spec_check base_check examples schema stats_options (Some []) w
    = (r1, w1) ->
  __init__ spec_check base_check examples schema stats_options None w
    = (r2, w2) ->
  r1 = r2
  /\ log w1 = log w
  /\ log w2 = log w ++ [no_splits_record]
  /\ (forall c, r1 = inr c ->
        exclude_splits (spec c) = json_utils.dumps []
        /\ json_utils.loads (exclude_splits (spec c)) = Some [])
  /\ (forall j,
        serialized stats_options j ->
        spec_check (heap w1) (built_spec examples schema j None w) = None ->
        base_check (heap w1) (built_spec examples schema j None w) = None ->
        exists c, r1 = inr c /\ r2 = inr c
                  /\ json_utils.loads (exclude_splits (spec c)) = Some []).
Proof.
  intros H1 H2.
  pose proof (init_log _ _ _ _ _ _ _ H1) as Hl1.
  pose proof (init_log _ _ _ _ _ _ _ H2) as Hl2.
  assert (Hr : r1 = r2).
  { revert H1 H2. init_cases stats_options (@None (list str));
      intros; simplify_eq; reflexivity. }
  split; [exact Hr|]. split; [by rewrite app_nil_r in Hl1|].
  split; [exact Hl2|]. split.
  - intros c ->. apply init_returns in H1 as (j & Hspec & _).
    by rewrite Hspec.
  - intros j Hj Hs Hb.
    pose proof (init_produces _ _ _ _ _ _ _ _ H1 Hj Hs Hb) as Hret.
    eexists. split; [exact Hret|]. split; [by rewrite <- Hr|reflexivity].
Qed.
End Construction.

(** * The statements on concrete runs *)

Section Runs.
Import component standard_component_specs sample.

(** Discharges [serialized] on a concrete options object. *)
Ltac serialized_here :=
  first [ reflexivity
        | left; split; reflexivity
        | right; split; [reflexivity|eexists; split; reflexivity] ].

Lemma omitted_exclude_splits_logs_once_and_decodes_empty_witness :
  __init__ check_kinds accept 0 (Some 1) (Some plain_options) None w0
    = (inr (returned (Some 1) (Some (py "{}")) (py "[]")), after [no_splits_record])
  /\ log (after [no_splits_record]) = log w0 ++ [no_splits_record]
  /\ json_utils.loads
       (exclude_splits (spec (returned (Some 1) (Some (py "{}")) (py "[]"))))
     = Some []
  /\ exists c,
       (inr (returned (Some 1) (Some (py "{}")) (py "[]")) : Exception + StatisticsGen)
       = inr c
       /\ json_utils.loads (exclude_splits (spec c)) = Some [].
Proof.
  assert (Hrun : __init__ check_kinds accept 0 (Some 1) (Some plain_options) None w0
                 = (inr (returned (Some 1) (Some (py "{}")) (py "[]")),
                    after [no_splits_record]))
    by (vm_compute; reflexivity).
  destruct (omitted_exclude_splits_logs_once_and_decodes_empty
              check_kinds accept 0 (Some 1) (Some plain_options) w0 _ _ Hrun)
    as (Hlog & _ & Hdec & Hprod).
  split; [exact Hrun|]. split; [exact Hlog|].
  split; [exact (proj2 (Hdec _ eq_refl))|].
  apply (Hprod (Some (py "{}"))); [serialized_here|reflexivity..].
Defined.

(** A list with a control character, a quote, a backslash, a code point
    above the basic plane and surrogates that do not form a pair is read
    back. *)
Lemma supplied_exclude_splits_round_trip_witness :
  let l := [py "train"; [10; 34; 92; 233; 128512; 56832; 55357]%N; py "eval"] in
  l <> []
  /\ Forall (fun s => valid_str s = true) l
  /\ Forall (fun s => no_surrogate_pair s = true) l
  /\ __init__ check_kinds accept 0 None (@None Options) (Some l) w0
     = (inr (returned None None (json_utils.dumps l)), after [])
  /\ json_utils.loads (exclude_splits (spec (returned None None (json_utils.dumps l))))
     = Some l.
Proof.
  intros l.
  assert (Hne : l <> []) by discriminate.
  assert (Hv : Forall (fun s => valid_str s = true) l)
    by (repeat constructor).
  assert (Hn : Forall (fun s => no_surrogate_pair s = true) l)
    by (repeat constructor).
  assert (Hrun : __init__ check_kinds accept 0 None (@None Options) (Some l) w0
                 = (inr (returned None None (json_utils.dumps l)), after []))
    by (vm_compute; reflexivity).
  split; [exact Hne|]. split; [exact Hv|]. split; [exact Hn|].
  split; [exact Hrun|].
  exact (supplied_exclude_splits_round_trip
           check_kinds accept 0 None (@None Options) l w0 _ _ Hne Hv Hn Hrun).
Defined.

(** A split name in which a high surrogate is directly followed by a low
    one is written as the text of the code point the pair stands for, and
    read back as that code point: the statement of C2 for all non-empty
    lists fails. *)
Lemma adjacent_surrogates_not_read_back :
  ~ (forall (T : Type) (I : StatsOptionsLike T) spec_check base_check
            examples schema (stats_options : option T) (l : list str) w c w',
       l <> [] ->
       __init__ spec_check base_check examples schema stats_options (Some l) w
         = (inr c, w') ->
       json_utils.loads (exclude_splits (spec c)) = Some l).
Proof.
  intros H.
  assert (Hrun : __init__ accept accept 0 None (@None Options)
                   (Some [lone_surrogates]) w0
                 = (inr (returned None None (json_utils.dumps [lone_surrogates])),
                    after []))
    by (vm_compute; reflexivity).
  specialize (H Options _ accept accept 0 None None [lone_surrogates] w0 _ _
                ltac:(discriminate) Hrun).
  vm_compute in H. discriminate H.
Qed.

(** With supplied options that count as false the field is [None], not
    the text [to_json] returns: the statement of C3 for all supplied
    options fails. *)
Lemma supplied_falsy_stats_options_not_serialized :
  ~ (forall (T : Type) (I : StatsOptionsLike T) spec_check base_check
            examples schema (o : T) exclude_splits w c w',
       __init__ spec_check base_check examples schema (Some o) exclude_splits w
         = (inr c, w') ->
       exists j, to_json o = Returns j /\ stats_options_json (spec c) = Some j).
Proof.
  intros H.
  edestruct (H Options _ accept accept 0 None falsy_options None w0)
    as (j & _ & Hj); [vm_compute; reflexivity|].
  discriminate Hj.
Qed.

Lemma truthy_stats_options_serialized_by_to_json_witness :
  truth plain_options = inr true
  /\ __init__ accept accept 0 None (Some plain_options) None w0
     = (inr (returned None (Some (py "{}")) (py "[]")), after [no_splits_record])
  /\ exists j, to_json plain_options = Returns j
               /\ stats_options_json
                    (spec (returned None (Some (py "{}")) (py "[]"))) = Some j.
Proof.
  assert (Hrun : __init__ accept accept 0 None (Some plain_options) None w0
                 = (inr (returned None (Some (py "{}")) (py "[]")),
                    after [no_splits_record]))
    by (vm_compute; reflexivity).
  split; [reflexivity|]. split; [exact Hrun|].
  exact (truthy_stats_options_serialized_by_to_json
           accept accept 0 None plain_options None w0 _ _ eq_refl Hrun).
Defined.

Lemma omitted_stats_options_gives_None_witness :
  __init__ accept accept 0 (Some 1) (@None Options) (Some [py "eval"]) w0
    = (inr (returned (Some 1) None (json_utils.dumps [py "eval"])), after [])
  /\ stats_options_json
       (spec (returned (Some 1) None (json_utils.dumps [py "eval"]))) = None.
Proof.
  assert (Hrun : __init__ accept accept 0 (Some 1) (@None Options)
                   (Some [py "eval"]) w0
                 = (inr (returned (Some 1) None (json_utils.dumps [py "eval"])),
                    after []))
    by (vm_compute; reflexivity).
  split; [exact Hrun|].
  exact (omitted_stats_options_gives_None
           accept accept 0 (Some 1) (Some [py "eval"]) w0 _ _ Hrun).
Defined.

Lemma outputs_only_the_new_statistics_channel_witness :
  is_Some (heap w0 !! 0)
  /\ is_Some (heap w0 !! 1)
  /\ __init__ check_kinds accept 0 (Some 1) (Some plain_options) None w0
     = (inr (returned (Some 1) (Some (py "{}")) (py "[]")), after [no_splits_record])
  /\ outputs (returned (Some 1) (Some (py "{}")) (py "[]")) = {[ "statistics" := 2 ]}
  /\ exists l,
       outputs (returned (Some 1) (Some (py "{}")) (py "[]")) = {[ "statistics" := l ]}
       /\ l <> 0 /\ Some 1 <> Some l.
Proof.
  assert (Hrun : __init__ check_kinds accept 0 (Some 1) (Some plain_options) None w0
                 = (inr (returned (Some 1) (Some (py "{}")) (py "[]")),
                    after [no_splits_record]))
    by (vm_compute; reflexivity).
  assert (H0 : is_Some (heap w0 !! 0)) by (by eexists).
  assert (H1 : is_Some (heap w0 !! 1)) by (by eexists).
  split; [exact H0|]. split; [exact H1|]. split; [exact Hrun|].
  split; [reflexivity|].
  destruct (outputs_only_the_new_statistics_channel
              check_kinds accept 0 (Some 1) (Some plain_options) None w0 _ _ H0
              ltac:(intros s [= <-]; exact H1) Hrun)
    as (l & Hout & _ & _ & _ & Hex & Hsch).
  exists l. split; [exact Hout|]. split; [exact Hex | exact Hsch].
Defined.

Lemma statistics_channel_is_example_statistics_witness :
  __init__ check_kinds accept 0 None (Some falsy_options) (Some []) w0
    = (inr (returned None None (py "[]")), after [])
  /\ type <$> heap (after []) !! statistics (spec (returned None None (py "[]")))
     = Some ExampleStatistics.
Proof.
  assert (Hrun : __init__ check_kinds accept 0 None (Some falsy_options) (Some []) w0
                 = (inr (returned None None (py "[]")), after []))
    by (vm_compute; reflexivity).
  split; [exact Hrun|].
  exact (statistics_channel_is_example_statistics
           check_kinds accept 0 None (Some falsy_options) (Some []) w0 _ _ Hrun).
Defined.



(** With a supplied split name in which a high surrogate is directly
    followed by a low one nothing is logged, but the field decodes to
    another list: the statement of C8 for all supplied lists fails. *)
Lemma supplied_adjacent_surrogates_decode_to_other_list :
  ~ (forall (T : Type) (I : StatsOptionsLike T) spec_check base_check
            examples schema (stats_options : option T) (l : list str) w r w',
       __init__ spec_check base_check examples schema stats_options (Some l) w
         = (r, w') ->
       log w' = log w
       /\ forall c, r = inr c ->
            json_utils.loads (exclude_splits (spec c)) = Some l).
Proof.
  intros H.
  assert (Hrun : __init__ check_kinds accept 0 (Some 1) (Some plain_options)
                   (Some [py "eval"; lone_surrogates]) w0
                 = (inr (returned (Some 1) (Some (py "{}"))
                           (json_utils.dumps [py "eval"; lone_surrogates])),
                    after []))
    by (vm_compute; reflexivity).
  destruct (H Options _ check_kinds accept 0 (Some 1) (Some plain_options)
              [py "eval"; lone_surrogates] w0 _ _ Hrun) as [_ Hdec].
  specialize (Hdec _ eq_refl). vm_compute in Hdec. discriminate Hdec.
Qed.

Lemma supplied_exclude_splits_decodes_and_logs_nothing_witness :
  let l := [py "eval"] in
  __init__ check_kinds accept 0 None (@None Options) (Some l) w0
    = (inr (returned None None (json_utils.dumps l)), after [])
  /\ log (after []) = log w0
  /\ exclude_splits (spec (returned None None (json_utils.dumps l)))
     = json_utils.dumps l
  /\ json_utils.loads (exclude_splits (spec (returned None None (json_utils.dumps l))))
     = Some l
  /\ exists c,
       (inr (returned None None (json_utils.dumps l)) : Exception + StatisticsGen)
       = inr c
       /\ exclude_splits (spec c) = json_utils.dumps l.
Proof.
  intros l.
  assert (Hrun : __init__ check_kinds accept 0 None (@None Options) (Some l) w0
                 = (inr (returned None None (json_utils.dumps l)), after []))
    by (vm_compute; reflexivity).
  destruct (supplied_exclude_splits_decodes_and_logs_nothing
              check_kinds accept 0 None (@None Options) (Some l) w0 _ _ Hrun)
    as (_ & _ & Hsup).
  destruct (Hsup l eq_refl) as (Hlog & Hdec & Hprod).
  destruct (Hdec _ eq_refl) as [Htext Hloads].
  split; [exact Hrun|]. split; [exact Hlog|]. split; [exact Htext|].
  split; [apply Hloads; repeat constructor|].
  apply (Hprod None); [serialized_here|reflexivity..].
Defined.


Lemma empty_exclude_splits_same_as_omitted_without_log_witness :
  let c := returned None (Some (py "{}")) (py "[]") in
  __init__ check_kinds accept 0 None (Some plain_options) (Some []) w0
    = (inr c, after [])
  /\ __init__ check_kinds accept 0 None (Some plain_options) None w0
     = (inr c, after [no_splits_record])
  /\ log (after []) = log w0
  /\ log (after [no_splits_record]) = log w0 ++ [no_splits_record]
  /\ exclude_splits (spec c) = json_utils.dumps []
  /\ json_utils.loads (exclude_splits (spec c)) = Some []
  /\ exists c',
       (inr c : Exception + StatisticsGen) = inr c'
       /\ (inr c : Exception + StatisticsGen) = inr c'
       /\ json_utils.loads (exclude_splits (spec c')) = Some [].
Proof.
  intros c.
  assert (H1 : __init__ check_kinds accept 0 None (Some plain_options) (Some []) w0
               = (inr c, after []))
    by (vm_compute; reflexivity).
  assert (H2 : __init__ check_kinds accept 0 None (Some plain_options) None w0
               = (inr c, after [no_splits_record]))
    by (vm_compute; reflexivity).
  destruct (empty_exclude_splits_same_as_omitted_without_log
              check_kinds accept 0 None (Some plain_options) w0 _ _ _ _ H1 H2)
    as (_ & Hl1 & Hl2 & Hdec & Hprod).
  destruct (Hdec _ eq_refl) as [Htext Hloads].
  split; [exact H1|]. split; [exact H2|]. split; [exact Hl1|].
  split; [exact Hl2|]. split; [exact Htext|]. split; [exact Hloads|].
  apply (Hprod (Some (py "{}"))); [serialized_here|reflexivity..].
Defined.
End Runs.

(** * Further properties of the constructor *)

Section Frame.
Import component standard_component_specs.
Context {StatsOptions : Type} `{!StatsOptionsLike StatsOptions}.

Implicit Types (examples : nat) (schema : option nat).
Implicit Types (stats_options : option StatsOptions).
Implicit Types (exclude_splits : option (list str)).
Implicit Types (w : World) (c : StatisticsGen) (e : Exception).
Implicit Types (spec_check base_check :
                  gmap nat Channel -> StatisticsGenSpec -> option Exception).

Lemma fresh_not_allocated w : heap w !! fresh (dom (heap w)) = None.
Proof. apply not_elem_of_dom, is_fresh. Qed.

(** X2: a run, whether it returns or raises, leaves every channel object
    that existed before it as it was, and adds exactly one object, the new
    example-statistics channel. *)
Theorem existing_channels_untouched
    spec_check base_check examples schema stats_options exclude_splits w r w' :
  __init__ spec_check base_check examples schema stats_options exclude_splits w
    = (r, w') ->
  (forall l ch, heap w !! l = Some ch -> heap w' !! l = Some ch)
  /\ dom (heap w') = {[ fresh (dom (heap w)) ]} ∪ dom (heap w)
  /\ size (heap w') = S (size (heap w))
  /\ heap w' !! fresh (dom (heap w)) = Some {| type := ExampleStatistics |}
  /\ (forall c, r = inr c -> statistics (spec c) = fresh (dom (heap w))).
Proof.
  intros Hrun. pose proof (init_heap _ _ _ _ _ _ _ _ _ Hrun) as Hheap.
  rewrite Hheap.
  pose proof (fresh_not_allocated w) as Hfresh.
  split; [|split; [|split; [|split]]].
  - intros l ch Hl. rewrite lookup_insert_ne; [done|].
    intros <-. congruence.
  - apply dom_insert_L.
  - by apply map_size_insert_None.
  - apply lookup_insert_eq.
  - intros c ->. apply init_returns in Hrun as (j & -> & _). reflexivity.
Qed.

(** X1: the spec of the constructed component holds the examples and
    schema arguments as they were given; when these refer to existing
    channels, they refer to the same channel objects after the run, and the
    statistics field refers to an existing channel too: no field of the spec
    dangles. *)
Theorem spec_channels_passed_through_and_live
    spec_check base_check examples schema stats_options exclude_splits w c w' :
  is_Some (heap w !! examples) ->
  (forall s, schema = Some s -> is_Some (heap w !! s)) ->
  __init__ spec_check base_check examples schema stats_options exclude_splits w
    = (inr c, w') ->
  standard_component_specs.examples (spec c) = examples
  /\ standard_component_specs.schema (spec c) = schema
  /\ heap w' !! standard_component_specs.examples (spec c) = heap w !! examples
  /\ (forall s, standard_component_specs.schema (spec c) = Some s ->
        heap w' !! s = heap w !! s)
  /\ is_Some (heap w' !! statistics (spec c)).
Proof.
  intros [ch Hex] Hsch Hrun.
  pose proof (init_heap _ _ _ _ _ _ _ _ _ Hrun) as Hheap.
  pose proof (fresh_not_allocated w) as Hfresh.
  apply init_returns in Hrun as (j & Hspec & _).
  rewrite Hspec, Hheap. simpl.
  split; [done|]. split; [done|]. split; [|split].
  - rewrite lookup_insert_ne; [done|]. intros Heq. congruence.
  - intros s Hs. destruct (Hsch s Hs) as [ch' Hch'].
    rewrite lookup_insert_ne; [done|]. intros Heq. congruence.
  - rewrite lookup_insert_eq. by eexists.
Qed.

(** X3: two constructions, one after the other, give components with
    different statistics channels, hence different outputs mappings; after
    the second, both channels exist as example-statistics channels. *)
Theorem successive_constructions_have_distinct_outputs
    spec_check1 base_check1 spec_check2 base_check2
    examples1 examples2 schema1 schema2
    stats_options1 stats_options2 exclude_splits1 exclude_splits2
    w c1 w1 c2 w2 :
  __init__ spec_check1 base_check1 examples1 schema1 stats_options1
    exclude_splits1 w = (inr c1, w1) ->
  __init__ spec_check2 base_check2 examples2 schema2 stats_options2
    exclude_splits2 w1 = (inr c2, w2) ->
  statistics (spec c1) <> statistics (spec c2)
  /\ outputs c1 <> outputs c2
  /\ heap w2 !! statistics (spec c1) = Some {| type := ExampleStatistics |}
  /\ heap w2 !! statistics (spec c2) = Some {| type := ExampleStatistics |}.
Proof.
  intros H1 H2.
  pose proof (init_heap _ _ _ _ _ _ _ _ _ H1) as Hh1.
  pose proof (init_heap _ _ _ _ _ _ _ _ _ H2) as Hh2.
  pose proof (fresh_not_allocated w1) as Hfresh.
  apply init_returns in H1 as (j1 & Hs1 & _).
  apply init_returns in H2 as (j2 & Hs2 & _).
  assert (Hlive : heap w1 !! statistics (spec c1) = Some {| type := ExampleStatistics |}).
  { rewrite Hs1, Hh1. simpl. apply lookup_insert_eq. }
  assert (Hne : statistics (spec c1) <> statistics (spec c2)).
  { rewrite Hs2. simpl. intros Heq. rewrite Heq in Hlive. congruence. }
  split; [exact Hne|]. split; [|split].
  - unfold outputs. intros Heq. apply Hne.
    assert (Hl : ({[ "statistics" := statistics (spec c1) ]} : gmap string nat)
                   !! "statistics" = Some (statistics (spec c2))).
    { rewrite Heq. apply lookup_singleton_eq. }
    rewrite lookup_singleton_eq in Hl. congruence.
  - rewrite Hh2, lookup_insert_ne; [exact Hlive|].
    intros Heq. apply Hne. rewrite Hs2. simpl. by rewrite Heq.
  - rewrite Hs2, Hh2. simpl. apply lookup_insert_eq.
Qed.
End Frame.

Section Errors.
Import component standard_component_specs.
Context {StatsOptions : Type} `{!StatsOptionsLike StatsOptions}.

Implicit Types (examples : nat) (schema : option nat).
Implicit Types (stats_options : option StatsOptions).
Implicit Types (exclude_splits : option (list str)).
Implicit Types (w : World) (c : StatisticsGen) (e : Exception).
Implicit Types (spec_check base_check :
                  gmap nat Channel -> StatisticsGenSpec -> option Exception).

(** X4: when the supplied options are truthy and their [to_json] raises,
    the constructor raises that very exception, whatever the spec
    constructor and the base initializer would have said: the options are
    serialized before the spec is built and handed on. *)
Theorem to_json_exception_preempts_validation
    spec_check base_check examples schema (o : StatsOptions) exclude_splits w e :
  truth o = inr true ->
  to_json o = Raises e ->
  (__init__ spec_check base_check examples schema (Some o) exclude_splits w).1
  = inl e.
Proof.
  intros Ho He.
  unfold __init__, bind, ret, lift, raise, logging.info, types.Channel.
  destruct exclude_splits; simpl; rewrite Ho; simpl; rewrite He; reflexivity.
Qed.

(** X5: options that are omitted or count as false are never serialized:
    the constructor then returns whenever the spec constructor and the base
    initializer accept specs without serialized options, even if [to_json]
    would raise, and the spec it returns has no serialized options. *)
Theorem falsy_options_never_serialized
    spec_check base_check examples schema stats_options exclude_splits w :
  truthy stats_options = inr false ->
  (forall h s, stats_options_json s = None -> spec_check h s = None) ->
  (forall h s, stats_options_json s = None -> base_check h s = None) ->
  exists c,
    (__init__ spec_check base_check examples schema stats_options
       exclude_splits w).1 = inr c
    /\ stats_options_json (spec c) = None.
Proof.
  intros Hfalse Hs Hb.
  assert (Hj : serialized stats_options None).
  { destruct stats_options as [o|]; [|done]. left. by split. }
  pose proof (init_accepted spec_check base_check examples schema stats_options
                exclude_splits w None Hj) as Hacc.
  simpl in Hacc. eexists. split; [apply Hacc|reflexivity].
  - by apply Hs.
  - by apply Hb.
Qed.
End Errors.

Section FurtherRuns.
Import component standard_component_specs sample.

Lemma existing_channels_untouched_witness :
  __init__ refuse accept 0 (Some 1) (Some plain_options) None w0
    = (inl (Raise "TypeError" "refused"), after [no_splits_record])
  /\ heap (after [no_splits_record]) !! 0 = Some {| type := Examples |}
  /\ heap (after [no_splits_record]) !! 1 = Some {| type := Schema |}
  /\ size (heap (after [no_splits_record])) = 3
  /\ heap (after [no_splits_record]) !! fresh (dom (heap w0))
     = Some {| type := ExampleStatistics |}.
Proof.
  assert (Hrun : __init__ refuse accept 0 (Some 1) (Some plain_options) None w0
                 = (inl (Raise "TypeError" "refused"), after [no_splits_record]))
    by (vm_compute; reflexivity).
  destruct (existing_channels_untouched
              refuse accept 0 (Some 1) (Some plain_options) None w0 _ _ Hrun)
    as (Hkeep & _ & Hsize & Hnew & _).
  split; [exact Hrun|].
  split; [apply Hkeep; reflexivity|].
  split; [apply Hkeep; reflexivity|].
  split; [exact Hsize | exact Hnew].
Defined.

Lemma spec_channels_passed_through_and_live_witness :
  let c := returned (Some 1) None (json_utils.dumps [py "eval"]) in
  is_Some (heap w0 !! 0)
  /\ is_Some (heap w0 !! 1)
  /\ __init__ check_kinds accept 0 (Some 1) (@None Options) (Some [py "eval"]) w0
     = (inr c, after [])
  /\ examples (spec c) = 0
  /\ schema (spec c) = Some 1
  /\ heap (after []) !! examples (spec c) = heap w0 !! 0
  /\ is_Some (heap (after []) !! statistics (spec c)).
Proof.
  intros c.
  assert (Hrun : __init__ check_kinds accept 0 (Some 1) (@None Options)
                   (Some [py "eval"]) w0 = (inr c, after []))
    by (vm_compute; reflexivity).
  assert (H0 : is_Some (heap w0 !! 0)) by (by eexists).
  assert (H1 : is_Some (heap w0 !! 1)) by (by eexists).
  destruct (spec_channels_passed_through_and_live
              check_kinds accept 0 (Some 1) (@None Options) (Some [py "eval"]) w0
              _ _ H0 ltac:(intros s [= <-]; exact H1) Hrun)
    as (Hex & Hsch & Hsame & _ & Hlive).
  split; [exact H0|]. split; [exact H1|]. split; [exact Hrun|].
  split; [exact Hex|]. split; [exact Hsch|]. split; [exact Hsame | exact Hlive].
Defined.

Lemma successive_constructions_have_distinct_outputs_witness :
  exists c1 w1 c2 w2,
    __init__ check_kinds accept 0 (Some 1) (Some plain_options) None w0 = (inr c1, w1)
    /\ __init__ accept accept 0 None (Some falsy_options) (Some [py "eval"]) w1
       = (inr c2, w2)
    /\ statistics (spec c1) = 2 /\ statistics (spec c2) = 3
    /\ statistics (spec c1) <> statistics (spec c2)
    /\ outputs c1 <> outputs c2.
Proof.
  eexists _, _, _, _. split; [vm_compute; reflexivity|].
  split; [vm_compute; reflexivity|].
  split; [reflexivity|]. split; [reflexivity|].
  edestruct (successive_constructions_have_distinct_outputs
               check_kinds accept accept accept 0 0 (Some 1) None
               (Some plain_options) (Some falsy_options) None (Some [py "eval"]) w0)
    as (Hne & Hout & _); [vm_compute; reflexivity..|].
  split; [exact Hne | exact Hout].
Defined.

Lemma to_json_exception_preempts_validation_witness :
  truth broken_options = inr true
  /\ to_json broken_options = Raises (Raise "ValueError" "not serializable")
  /\ (__init__ refuse refuse 0 None (Some broken_options) None w0).1
     = inl (Raise "ValueError" "not serializable").
Proof.
  split; [reflexivity|]. split; [reflexivity|].
  apply (to_json_exception_preempts_validation
           refuse refuse 0 None broken_options None w0); reflexivity.
Defined.

Lemma falsy_options_never_serialized_witness :
  truthy (Some falsy_broken_options) = inr false
  /\ exists c,
       (__init__ accept accept 0 None (Some falsy_broken_options) None w0).1 = inr c
       /\ stats_options_json (spec c) = None.
Proof.
  split; [reflexivity|].
  apply (falsy_options_never_serialized
           accept accept 0 None (Some falsy_broken_options) None w0);
    [reflexivity | intros; reflexivity | intros; reflexivity].
Defined.
End FurtherRuns.
